(** * OpenXAI model zoo: a shallow embedding of [openxai/model.py]

    The file embeds the two classifiers of the module
    ([LogisticRegression], [ArtificialNeuralNetwork]) and the loader
    [LoadModel], and proves properties of them.

    Conventions of the embedding.
    - A torch tensor is its shape and its contiguous row-major storage.
      A [tensor] is a CPU tensor of torch's default dtype [float32], the
      dtype of every parameter.  A tensor of another dtype can only come in
      as the argument of [predict] or [predict_proba]; it is given by its
      dtype and the float32 tensor that [.float()] makes of it
      ([TorchTensorOf]).  An array-like argument is given by the float32
      entries that [torch.from_numpy(np.array(data)).float()] makes of it.
    - The scalar arithmetic of the tensors is an interface ([Scalar]):
      the results hold for every interpretation of the operations, in
      particular for IEEE arithmetic.  The real numbers are one
      interpretation; it serves as the scalar type of the examples and says
      nothing about rounding, overflow or NaN.
    - A Python exception is a value of [exn]; a call that may raise returns
      a [result].
    - [torch.nn.functional.linear], [softmax], [torch.squeeze],
      [nn.Sequential] and [load_state_dict] belong to torch; they are
      written here from their documented behaviour. *)

From stdpp Require Import base decidable option list strings gmap pretty.
From Stdlib Require Import ZArith Lia.
From Stdlib Require Import Reals Lra.

Local Open Scope Z_scope.
Local Open Scope nat_scope.

(** ** Exceptions and results *)

Inductive exn : Type :=
| KeyError (key : string)
| IndexError (msg : string)
| ValueError (msg : string)
| NotImplementedError (msg : string)
| RuntimeError (msg : string)
| StopIteration
| UnboundLocalError (name : string)
| OSError (msg : string)
| ConnectionError (msg : string).

Inductive result (A : Type) : Type :=
| Ok (a : A)
| Raise (e : exn).
Arguments Ok {A} a.
Arguments Raise {A} e.

#[global] Instance result_ret : MRet result := fun A a => Ok a.
#[global] Instance result_bind : MBind result := fun A B f r =>
  match r with
  | Ok a => f a
  | Raise e => Raise e
  end.
#[global] Instance result_fmap : FMap result := fun A B f r =>
  match r with
  | Ok a => Ok (f a)
  | Raise e => Raise e
  end.

Definition is_ok {A} (r : result A) : bool :=
  match r with Ok _ => true | Raise _ => false end.

(** What torch's own operations raise. *)
Definition raises_only_RuntimeError {A} (r : result A) : Prop :=
  forall e, r = Raise e -> exists msg, e = RuntimeError msg.

(** ** Scalars *)

(** The element type of a tensor with the operations the module uses:
    the arithmetic of [F.linear] and [F.softmax] and the four element-wise
    non-linearities of [activation_functions]. *)
Class Scalar (F : Type) : Type := {
  fzero : F;
  fadd : F -> F -> F;
  fsub : F -> F -> F;
  fmul : F -> F -> F;
  fdiv : F -> F -> F;
  fexp : F -> F;
  frelu : F -> F;
  fleaky_relu : F -> F;
  fsigmoid : F -> F;
  ftanh : F -> F
}.

(** ** Tensors *)

(** The dtypes a tensor handed to the module can have: [float32], torch's
    default and the dtype of the parameters, and the other floating-point,
    integer, boolean and complex dtypes. *)
Inductive dtype : Type :=
| Float32 | Float64 | Float16 | BFloat16
| Int64 | Int32 | Int16 | Int8 | UInt8 | Bool
| Complex64 | Complex128.

#[global] Instance dtype_eq_dec : EqDecision dtype.
Proof. solve_decision. Defined.

Record tensor (F : Type) : Type := Tensor {
  shape : list nat;
  data : list F
}.
Arguments Tensor {F} _ _.
Arguments shape {F} _.
Arguments data {F} _.

(** A numpy array: same layout, another type, so that "returns a numpy
    array" is visible in the type of a function. *)
Record ndarray (F : Type) : Type := NdArray {
  nd_shape : list nat;
  nd_data : list F
}.
Arguments NdArray {F} _ _.
Arguments nd_shape {F} _.
Arguments nd_data {F} _.

Definition numel (s : list nat) : nat := foldr Nat.mul 1 s.

Definition tensor_wf {F} (t : tensor F) : Prop :=
  length (data t) = numel (shape t).

(** [chunks n k l]: the first [k] consecutive rows of width [n] of [l]. *)
Fixpoint chunks {A} (n k : nat) (l : list A) : list (list A) :=
  match k with
  | O => []
  | S k' => take n l :: chunks n k' (drop n l)
  end.

(** [torch.from_numpy] and [Tensor.detach().numpy()] share the storage. *)
Definition from_numpy {F} (a : ndarray F) : tensor F :=
  Tensor (nd_shape a) (nd_data a).
Definition numpy {F} (t : tensor F) : ndarray F :=
  NdArray (shape t) (data t).

(** [torch.squeeze(t)]: every dimension of size 1 is removed. *)
Definition squeeze {F} (t : tensor F) : tensor F :=
  Tensor (filter (fun d => d <> 1) (shape t)) (data t).

(** [t[k]] on the first dimension, for a constant index [k]. *)
Definition select0 {F} (t : tensor F) (k : nat) : result (tensor F) :=
  match shape t with
  | [] => Raise (IndexError "too many indices for tensor of dimension 0")
  | d :: rest =>
      if decide (k < d)
      then Ok (Tensor rest (take (numel rest) (drop (k * numel rest) (data t))))
      else Raise (IndexError "index out of bounds for dimension 0")
  end.

(** [t[i, j]] of a matrix, read in its row-major storage. *)
Definition entry {F} (t : tensor F) (i j : nat) : option F :=
  match shape t with
  | [rows; cols] =>
      if decide (i < rows /\ j < cols) then data t !! (i * cols + j) else None
  | _ => None
  end.

Section Torch.
Context {F : Type} `{Scalar F}.

(** Element-wise difference of two tensors of one shape. *)
Definition tensor_sub (a b : tensor F) : tensor F :=
  Tensor (shape a) (zip_with fsub (data a) (data b)).

(** ** [nn.Linear] *)

Record Linear : Type := {
  in_features : nat;
  out_features : nat;
  weight : tensor F;   (* shape [out_features; in_features] *)
  bias : tensor F      (* shape [out_features] *)
}.

Definition Linear_wf (l : Linear) : Prop :=
  shape (weight l) = [out_features l; in_features l] /\
  shape (bias l) = [out_features l] /\
  tensor_wf (weight l) /\ tensor_wf (bias l).

(** [nn.Linear(i, o)] draws its initial parameters from the generator;
    [rnd] is the stream of draws and [off] the position in it. *)
Definition nn_Linear (rnd : nat -> F) (off i o : nat) : Linear :=
  {| in_features := i;
     out_features := o;
     weight := Tensor [o; i] (map rnd (seq off (o * i)));
     bias := Tensor [o] (map rnd (seq (off + o * i) o)) |}.

Definition dot (r w : list F) : F :=
  foldl (fun acc p => fadd acc (fmul p.1 p.2)) fzero (zip r w).

Definition weight_rows (l : Linear) : list (list F) :=
  chunks (in_features l) (out_features l) (data (weight l)).

(** One row of [x @ W^T + b]. *)
Definition affine_row (l : Linear) (r : list F) : list F :=
  zip_with (fun w b => fadd (dot r w) b) (weight_rows l) (data (bias l)).

(** [F.linear(x, weight, bias)]: the affine map on the last dimension.  The
    strings of the two [RuntimeError]s name the check that fails; they are
    not the texts of torch's messages. *)
Definition Linear_forward (l : Linear) (x : tensor F) : result (tensor F) :=
  match last (shape x) with
  | None => Raise (RuntimeError "both arguments to matmul need to be at least 1D")
  | Some d =>
      if decide (d = in_features l)
      then Ok (Tensor (removelast (shape x) ++ [out_features l])
                 (concat (map (affine_row l)
                            (chunks d (numel (removelast (shape x))) (data x)))))
      else Raise (RuntimeError "mat1 and mat2 shapes cannot be multiplied")
  end.

(** [F.softmax(x, dim=-1)]. *)
Definition softmax_row (r : list F) : list F :=
  let s := foldl fadd fzero (map fexp r) in
  map (fun v => fdiv (fexp v) s) r.

Definition softmax (x : tensor F) : tensor F :=
  match last (shape x) with
  | None => Tensor [] (softmax_row (data x))
  | Some d =>
      Tensor (shape x)
        (concat (map softmax_row (chunks d (numel (removelast (shape x))) (data x))))
  end.

(** ** The modules of the file: affine layers and the four activations *)

Inductive activation : Type := ReLU | LeakyReLU | Sigmoid | Tanh.

Definition activation_apply (a : activation) : F -> F :=
  match a with
  | ReLU => frelu
  | LeakyReLU => fleaky_relu
  | Sigmoid => fsigmoid
  | Tanh => ftanh
  end.

Inductive module : Type :=
| MLinear (l : Linear)
| MActivation (a : activation).

Definition module_forward (m : module) (x : tensor F) : result (tensor F) :=
  match m with
  | MLinear l => Linear_forward l x
  | MActivation a => Ok (Tensor (shape x) (map (activation_apply a) (data x)))
  end.

(** [nn.Sequential.forward]: the modules in order; none returns the input. *)
Fixpoint Sequential_forward (ms : list module) (x : tensor F) : result (tensor F) :=
  match ms with
  | [] => Ok x
  | m :: ms' => y ← module_forward m x; Sequential_forward ms' y
  end.

(** A tensor of any dtype: its dtype and its entries converted to
    float32.  A shape operation such as [squeeze] acts on the second
    component, since it commutes with the conversion. *)
Definition typed_tensor : Type := dtype * tensor F.

(** [Tensor.float()] *)
Definition float_ (x : typed_tensor) : tensor F := x.2.

(** [F.linear] on a tensor of any dtype: the parameters are float32, and
    torch refuses an input of another dtype with a [RuntimeError] (the string
    names the check; it is not the text of torch's message). *)
Definition require_float32 (x : typed_tensor) : result (tensor F) :=
  if decide (x.1 = Float32) then Ok x.2
  else Raise (RuntimeError "mat1 and mat2 must have the same dtype").

(** ** The argument of [predict]: a float32 tensor ([TorchTensor]), a
    tensor of the dtype [dt] whose conversion to float32 is [t]
    ([TorchTensorOf dt t]), or anything else ([ArrayLike]), given as the
    array [np.array(data)] makes of it, with its entries as float32. *)
Inductive py_data : Type :=
| TorchTensor (t : tensor F)
| ArrayLike (a : ndarray F)
| TorchTensorOf (dt : dtype) (t : tensor F).



(** A [state_dict]: an ordered mapping from parameter names to tensors. *)
Definition state_dict : Type := list (string * tensor F).

Fixpoint sd_get (sd : state_dict) (k : string) : option (tensor F) :=
  match sd with
  | [] => None
  | (k', v) :: sd' => if decide (k' = k) then Some v else sd_get sd' k
  end.

(** One parameter of a strict [load_state_dict]: the key must be there and
    the shape must be the shape of the parameter it replaces. *)
Definition load_param (sd : state_dict) (key : string) (p : tensor F)
  : result (tensor F) :=
  match sd_get sd key with
  | None => Raise (RuntimeError "Error(s) in loading state_dict")
  | Some v =>
      if decide (shape v = shape p) then Ok v
      else Raise (RuntimeError "Error(s) in loading state_dict")
  end.

Definition Linear_load (sd : state_dict) (prefix : string) (l : Linear)
  : result Linear :=
  w ← load_param sd (prefix +:+ "weight") (weight l);
  b ← load_param sd (prefix +:+ "bias") (bias l);
  Ok {| in_features := in_features l; out_features := out_features l;
        weight := w; bias := b |}.

(** The other half of strictness: no key without a parameter. *)
Definition check_unexpected (sd : state_dict) (expected : list string)
  : result unit :=
  match list_find (fun p => p.1 ∉ expected) sd with
  | Some _ => Raise (RuntimeError "Error(s) in loading state_dict")
  | None => Ok tt
  end.

End Torch.
Arguments Linear F : clear implicits.
Arguments module F : clear implicits.
Arguments py_data F : clear implicits.
Arguments typed_tensor F : clear implicits.
Arguments state_dict F : clear implicits.

(** Python's [l[:stop]] and [l[start:]] for an integer bound. *)
Definition py_bound (n : nat) (i : Z) : nat :=
  Z.to_nat (if decide (i < 0)%Z then Z.max 0 (i + Z.of_nat n) else Z.min i (Z.of_nat n)).
Definition py_slice_to {A} (l : list A) (stop : Z) : list A :=
  take (py_bound (length l) stop) l.
Definition py_slice_from {A} (l : list A) (start : Z) : list A :=
  drop (py_bound (length l) start) l.

(** [activation_functions]: one shared module per name. *)
Definition activation_functions : gmap string activation :=
  {[ "relu" := ReLU; "leaky_relu" := LeakyReLU;
     "sigmoid" := Sigmoid; "tanh" := Tanh ]}.

(** ** [class LogisticRegression] *)
Module LogisticRegression.
Section Defs.
Context {F : Type} `{Scalar F}.

Record t : Type := {
  name : string;
  abbrv : string;
  input_dim : nat;
  n_class : nat;
  linear : Linear F
}.

Definition init (rnd : nat -> F) (input_dim n_class : nat) : t :=
  {| name := "LogisticRegression";
     abbrv := "lr";
     input_dim := input_dim;
     n_class := n_class;
     linear := nn_Linear rnd 0 input_dim n_class |}.

(** What [init] establishes and [load_state_dict] keeps. *)
Definition wf (m : t) : Prop :=
  in_features (linear m) = input_dim m /\
  out_features (linear m) = n_class m /\
  Linear_wf (linear m).

Definition return_ground_truth_importance (m : t) : result (tensor F) :=
  r1 ← select0 (weight (linear m)) 1;
  r0 ← select0 (weight (linear m)) 0;
  Ok (tensor_sub r1 r0).

Definition forward (m : t) (x : tensor F) : result (tensor F) :=
  softmax <$> Linear_forward (linear m) x.

Definition predict_with_logits (m : t) (x : tensor F) : result (tensor F) :=
  Linear_forward (linear m) x.

(** [forward] on a tensor of any dtype; the dtype is checked where the
    affine layer meets its float32 weight. *)
Definition forward_typed (m : t) (x : typed_tensor F) : result (tensor F) :=
  input ← require_float32 x; forward m input.

Definition predict (m : t) (data : py_data F) : result (ndarray F) :=
  let input : typed_tensor F :=
    match data with
    | ArrayLike a => (Float32, from_numpy a)   (* from_numpy(np.array(data)).float() *)
    | TorchTensor t => (Float32, squeeze t)    (* torch.squeeze(data) *)
    | TorchTensorOf dt t => (dt, squeeze t)    (* torch.squeeze(data): no .float() *)
    end in
  numpy <$> forward_typed m input.

Definition load_state_dict (m : t) (sd : state_dict F) : result t :=
  l ← Linear_load sd "linear." (linear m);
  _ ← check_unexpected sd ["linear.weight"; "linear.bias"];
  Ok {| name := name m; abbrv := abbrv m; input_dim := input_dim m;
        n_class := n_class m; linear := l |}.

End Defs.
Arguments t F : clear implicits.
End LogisticRegression.

(** [predict] as the specification words it: one leading dimension of size
    1, if there is one, is dropped, for a tensor and for an array alike. *)
Definition squeeze_leading {F} (t : tensor F) : tensor F :=
  match shape t with
  | 1 :: rest => Tensor rest (data t)
  | _ => t
  end.

Definition LR_predict_as_specified {F} `{Scalar F}
    (m : LogisticRegression.t F) (data : py_data F) : result (ndarray F) :=
  let input :=
    match data with
    | ArrayLike a => from_numpy a
    | TorchTensor t => t
    | TorchTensorOf _ t => t
    end in
  numpy <$> LogisticRegression.forward m (squeeze_leading input).

(** ** [class ArtificialNeuralNetwork] *)
Module ArtificialNeuralNetwork.
Section Defs.
Context {F : Type} `{Scalar F}.

Record t : Type := {
  name : string;
  abbrv : string;
  network : list (module F)
}.

(** The loop of [__init__]: [off] is the position in the generator's
    stream, [previous_layer] and [model_layers] are the loop's variables. *)
Fixpoint init_loop (rnd : nat -> F) (activation : string)
    (hidden_layers : list nat) (off previous_layer : nat)
    (model_layers : list (module F))
  : result (nat * nat * list (module F)) :=
  match hidden_layers with
  | [] => Ok (off, previous_layer, model_layers)
  | layer :: rest =>
      let lin := nn_Linear rnd off previous_layer layer in
      match activation_functions !! activation with
      | None => Raise (KeyError activation)
      | Some a =>
          init_loop rnd activation rest
            (off + layer * previous_layer + layer) layer
            (model_layers ++ [MLinear lin; MActivation a])
      end
  end.

Definition init (rnd : nat -> F) (input_dim : nat) (hidden_layers : list nat)
    (n_class : nat) (activation : string) : result t :=
  '(off, previous_layer, model_layers) ←
     init_loop rnd activation hidden_layers 0 input_dim [];
  Ok {| name := "ArtificialNeuralNetwork";
        abbrv := "ann";
        network := model_layers ++ [MLinear (nn_Linear rnd off previous_layer n_class)] |}.

(** What [init] establishes and [load_state_dict] keeps: one affine layer
    and one activation per hidden width, then the last affine layer, each
    as wide as the one before it requires. *)
Fixpoint layers_ok (previous_layer : nat) (hidden_layers : list nat)
    (n_class : nat) (ms : list (module F)) : Prop :=
  match hidden_layers with
  | [] =>
      exists l, ms = [MLinear l] /\ Linear_wf l /\
        in_features l = previous_layer /\ out_features l = n_class
  | layer :: rest =>
      exists l a ms', ms = MLinear l :: MActivation a :: ms' /\ Linear_wf l /\
        in_features l = previous_layer /\ out_features l = layer /\
        layers_ok layer rest n_class ms'
  end.

Definition wf (input_dim : nat) (hidden_layers : list nat) (n_class : nat)
    (m : t) : Prop :=
  layers_ok input_dim hidden_layers n_class (network m).

(** [len(self.network) // 2] *)
Definition hidden_count (m : t) : Z := (Z.of_nat (length (network m)) `div` 2)%Z.

Definition layer_error (m : t) (hidden_layer_idx : Z) : exn :=
  ValueError ("The model has only " +:+ pretty (hidden_count m)
              +:+ " hidden layers, but hidden layer " +:+ pretty hidden_layer_idx
              +:+ " was requested (indexing starts at 0).").

Definition predict_layer (m : t) (x : tensor F) (hidden_layer_idx : Z)
    (post_act : bool) : result (tensor F) :=
  if decide (hidden_layer_idx >= hidden_count m)%Z
  then Raise (layer_error m hidden_layer_idx)
  else
    let network_idx := (2 * hidden_layer_idx + Z.b2z post_act)%Z in
    Sequential_forward (py_slice_to (network m) (network_idx + 1)) x.

Definition forward (m : t) (x : tensor F) : result (tensor F) :=
  softmax <$> Sequential_forward (network m) x.

Definition predict_with_logits (m : t) (x : tensor F) : result (tensor F) :=
  Sequential_forward (network m) x.


Definition predict (m : t) (x : py_data F) : result (ndarray F) :=
  let input :=                                  (* input.float() *)
    match x with
    | TorchTensor t => squeeze t
    | ArrayLike a => from_numpy a
    | TorchTensorOf dt t => float_ (dt, squeeze t)
    end in
  numpy <$> forward m input.

(** Strict [load_state_dict]: the parameters of the module at position [k]
    are named [network.k.weight] and [network.k.bias]. *)
Fixpoint load_modules (sd : state_dict F) (k : nat) (ms : list (module F))
  : result (list (module F)) :=
  match ms with
  | [] => Ok []
  | MLinear l :: ms' =>
      l' ← Linear_load sd ("network." +:+ pretty k +:+ ".") l;
      r ← load_modules sd (S k) ms';
      Ok (MLinear l' :: r)
  | MActivation a :: ms' =>
      r ← load_modules sd (S k) ms';
      Ok (MActivation a :: r)
  end.

Fixpoint expected_keys (k : nat) (ms : list (module F)) : list string :=
  match ms with
  | [] => []
  | MLinear _ :: ms' =>
      ("network." +:+ pretty k +:+ ".weight")
        :: ("network." +:+ pretty k +:+ ".bias") :: expected_keys (S k) ms'
  | MActivation _ :: ms' => expected_keys (S k) ms'
  end.

Definition load_state_dict (m : t) (sd : state_dict F) : result t :=
  ms ← load_modules sd 0 (network m);
  _ ← check_unexpected sd (expected_keys 0 (network m));
  Ok {| name := name m; abbrv := abbrv m; network := ms |}.

End Defs.
Arguments t F : clear implicits.
End ArtificialNeuralNetwork.

(** ** The registry of pretrained models *)

Definition dataverse_prefix : string :=
  "https://dataverse.harvard.edu/api/access/datafile/".

Definition dataverse_ids : gmap string (gmap string string) :=
  {[ "lr" :=
       {[ "adult" := "8550955"; "compas" := "8550949"; "gaussian" := "8550960";
          "german" := "8550945"; "gmsc" := "8550948"; "heart" := "8550956";
          "heloc" := "8550950"; "pima" := "8550959" ]};
     "ann" :=
       {[ "adult" := "8550958"; "compas" := "8550951"; "gaussian" := "8550957";
          "german" := "8550946"; "gmsc" := "8550947"; "heart" := "8550954";
          "heloc" := "8550952"; "pima" := "8550953" ]} ]}.

(** [d[k]] on a dict with string keys. *)
Definition getitem {V} (d : gmap string V) (k : string) : result V :=
  match d !! k with
  | Some v => Ok v
  | None => Raise (KeyError k)
  end.

(** [str.upper] on ASCII letters. *)
Definition upper_ascii (c : Ascii.ascii) : Ascii.ascii :=
  let n := Ascii.nat_of_ascii c in
  if decide (97 <= n <= 122) then Ascii.ascii_of_nat (n - 32) else c.

Fixpoint upper (s : string) : string :=
  match s with
  | EmptyString => EmptyString
  | String c s' => String (upper_ascii c) (upper s')
  end.

(** The two messages of [LoadModel], under the names of the specification. *)
Definition UnsupportedCombination (ml_model : string) : exn :=
  NotImplementedError
    ("The current version of >LoadModel< does not support this data set for "
       +:+ upper ml_model +:+ " models.").

Definition TrainingNotSupported : exn :=
  NotImplementedError
    "The current version of >LoadModel< does not support training a ML model from scratch, yet.".

(** ** [LoadModel] and its collaborators *)
Section Loader.
Context {F : Type} `{Scalar F}.
Context {world : Type}.

(** A computation in the world: it returns or raises, and leaves a world. *)
Definition IO (A : Type) : Type := world -> result A * world.

Definition io_ret {A} (a : A) : IO A := fun w => (Ok a, w).
Definition io_raise {A} (e : exn) : IO A := fun w => (Raise e, w).
Definition io_lift {A} (r : result A) : IO A := fun w => (r, w).
Definition io_bind {A B} (m : IO A) (f : A -> IO B) : IO B := fun w =>
  match m w with
  | (Ok a, w') => f a w'
  | (Raise e, w') => (Raise e, w')
  end.

Notation "x <~ m ;; k" := (io_bind m (fun x => k))
  (at level 100, m at next level, k at level 200, right associativity,
   format "x  <~  m ;;  '/' k").

(** What the loader calls outside the module: the file system, the network,
    the deserializer and torch's generator (one call gives the stream of
    draws of one constructor). *)
Record collaborators : Type := {
  os_makedirs : string -> IO unit;                    (* exist_ok=True *)
  requests_get : string -> IO (list Byte.byte);       (* .content of the response *)
  file_write : string -> list Byte.byte -> IO unit;   (* open(p, 'wb').write(b) *)
  torch_load : string -> IO (state_dict F);
  torch_generator : IO (nat -> F)
}.

Inductive Model : Type :=
| LR (m : LogisticRegression.t F)
| ANN (m : ArtificialNeuralNetwork.t F).

(** [next(iter(state_dict.values())).shape[1]] *)
Definition first_shape1 (sd : state_dict F) : result nat :=
  match sd with
  | [] => Raise StopIteration
  | (_, v) :: _ =>
      match shape v !! 1 with
      | Some n => Ok n
      | None => Raise (IndexError "tuple index out of range")
      end
  end.

Definition Model_load_state_dict (model : option Model) (sd : state_dict F)
  : result Model :=
  match model with
  | None => Raise (UnboundLocalError "model")
  | Some (LR m) => LR <$> LogisticRegression.load_state_dict m sd
  | Some (ANN m) => ANN <$> ArtificialNeuralNetwork.load_state_dict m sd
  end.

Definition LoadModel (C : collaborators) (data_name ml_model : string)
    (pretrained : bool) : IO Model :=
  if pretrained then
    let model_path := "./models/pretrained/" in
    _ <~ os_makedirs C model_path;;
    ids <~ io_lift (getitem dataverse_ids ml_model);;
    if decide (is_Some (ids !! data_name)) then
      ids' <~ io_lift (getitem dataverse_ids ml_model);;
      id <~ io_lift (getitem ids' data_name);;
      r <~ requests_get C (dataverse_prefix +:+ id);;
      let model_filename := ml_model +:+ "_" +:+ data_name +:+ ".pt" in
      _ <~ file_write C (model_path +:+ model_filename) r;;
      state_dict <~ torch_load C (model_path +:+ model_filename);;
      num_features <~ io_lift (first_shape1 state_dict);;
      model <~ (if decide (ml_model = "ann") then
                  rnd <~ torch_generator C;;
                  m <~ io_lift (ArtificialNeuralNetwork.init rnd num_features
                                  [100; 100] 2 "relu");;
                  io_ret (Some (ANN m))
                else if decide (ml_model = "lr") then
                  rnd <~ torch_generator C;;
                  io_ret (Some (LR (LogisticRegression.init rnd num_features 2)))
                else io_ret None);;
      io_lift (Model_load_state_dict model state_dict)
    else
      io_raise (UnsupportedCombination ml_model)
  else
    io_raise TrainingNotSupported.

End Loader.
Arguments IO world A : clear implicits.
Arguments collaborators F world : clear implicits.
Arguments Model F : clear implicits.

(** "Among the registered dataset/model pairs". *)
Definition registered (ml_model data_name : string) : Prop :=
  exists ids, dataverse_ids !! ml_model = Some ids /\ is_Some (ids !! data_name).

Definition is_NotImplementedError (e : exn) : bool :=
  match e with NotImplementedError _ => true | _ => false end.

(** Collaborators whose own failures are never a [NotImplementedError]. *)
Definition never_NotImplementedError {world A} (m : IO world A) : Prop :=
  forall w e w', m w = (Raise e, w') -> is_NotImplementedError e = false.

Definition plain_collaborators {F world} (C : collaborators F world) : Prop :=
  (forall p, never_NotImplementedError (os_makedirs C p)) /\
  (forall u, never_NotImplementedError (requests_get C u)) /\
  (forall p b, never_NotImplementedError (file_write C p b)) /\
  (forall p, never_NotImplementedError (torch_load C p)) /\
  never_NotImplementedError (torch_generator C).

(** ** The real numbers as scalars *)

(** Exact arithmetic: one interpretation of the scalar operations, used to
    write tensors down in the examples.  It does not round, overflow or
    produce NaN as float32 does. *)

#[global] Instance Scalar_R : Scalar R := {|
  fzero := 0%R;
  fadd := Rplus;
  fsub := Rminus;
  fmul := Rmult;
  fdiv := Rdiv;
  fexp := exp;
  frelu := fun x => Rmax 0 x;
  fleaky_relu := fun x => (Rmax 0 x + 0.01 * Rmin 0 x)%R;
  fsigmoid := fun x => (1 / (1 + exp (- x)))%R;
  ftanh := tanh
|}.

(** The sum of a list of reals. *)
Definition Rsum (l : list R) : R := foldr Rplus 0%R l.

(** Softmax of one row, as a formula. *)
Definition softmax_formula (r : list R) : list R :=
  map (fun v => (exp v / Rsum (map exp r))%R) r.

(** A logistic regression with the weights [[1, 2], [3, 5]]. *)
Definition lr_example : LogisticRegression.t R :=
  {| LogisticRegression.name := "LogisticRegression";
     LogisticRegression.abbrv := "lr";
     LogisticRegression.input_dim := 2;
     LogisticRegression.n_class := 2;
     LogisticRegression.linear :=
       {| in_features := 2; out_features := 2;
          weight := Tensor [2; 2] [1; 2; 3; 5]%R;
          bias := Tensor [2] [0; 1]%R |} |}.

(** A network on two features with one hidden layer of width two. *)
Definition ann_example : ArtificialNeuralNetwork.t R :=
  {| ArtificialNeuralNetwork.name := "ArtificialNeuralNetwork";
     ArtificialNeuralNetwork.abbrv := "ann";
     ArtificialNeuralNetwork.network :=
       [MLinear {| in_features := 2; out_features := 2;
                   weight := Tensor [2; 2] [1; 0; 0; 1]%R;
                   bias := Tensor [2] [0; 0]%R |};
        MActivation ReLU;
        MLinear {| in_features := 2; out_features := 2;
                   weight := Tensor [2; 2] [1; 1; 0; 1]%R;
                   bias := Tensor [2] [0; 0]%R |}] |}.

(** ** A world for the examples: the trace of the outside calls *)

Inductive event : Type :=
| EMakedirs (path : string)
| EGet (url : string)
| EWrite (path : string) (content : list Byte.byte)
| ELoad (path : string)
| EGenerator.

(** Collaborators that record each call; every download is empty and
    deserializes to the parameters [sd]. *)
Definition tracing (sd : state_dict R) : collaborators R (list event) := {|
  os_makedirs := fun p w => (Ok tt, w ++ [EMakedirs p]);
  requests_get := fun u w => (Ok [], w ++ [EGet u]);
  file_write := fun p b w => (Ok tt, w ++ [EWrite p b]);
  torch_load := fun p w => (Ok sd, w ++ [ELoad p]);
  torch_generator := fun w => (Ok (fun _ => 0%R), w ++ [EGenerator])
|}.

(** Collaborators whose [os.makedirs] is refused; the others as in
    [tracing]. *)
Definition tracing_readonly (sd : state_dict R) : collaborators R (list event) := {|
  os_makedirs := fun p w => (Raise (OSError "Permission denied"), w ++ [EMakedirs p]);
  requests_get := requests_get (tracing sd);
  file_write := file_write (tracing sd);
  torch_load := torch_load (tracing sd);
  torch_generator := torch_generator (tracing sd)
|}.

(** The parameters of a logistic regression on two features. *)
Definition lr_sd2 : state_dict R :=
  [("linear.weight", Tensor [2; 2] [1; 2; 3; 5]%R);
   ("linear.bias", Tensor [2] [0; 1]%R)].

(** * Properties *)

(** ** The loader on an example *)

Example LoadModel_lr_trace :
  (LoadModel (tracing lr_sd2) "adult" "lr" true []).2 =
  [EMakedirs "./models/pretrained/";
   EGet "https://dataverse.harvard.edu/api/access/datafile/8550955";
   EWrite "./models/pretrained/lr_adult.pt" [];
   ELoad "./models/pretrained/lr_adult.pt";
   EGenerator].
Proof. reflexivity. Qed.

Example LoadModel_lr_model :
  (LoadModel (tracing lr_sd2) "adult" "lr" true []).1 =
  Ok (LR lr_example).
Proof. reflexivity. Qed.

(** ** The loader *)

Section LoaderFacts.
Context {F : Type} `{Scalar F} {world : Type}.
Implicit Types (C : collaborators F world) (w : world).

Lemma dataverse_ids_keys (ml_model : string) :
  is_Some (dataverse_ids !! ml_model) <-> ml_model = "lr" \/ ml_model = "ann".
Proof.
  unfold dataverse_ids. split.
  - intros [ids Hids].
    destruct (decide (ml_model = "lr")) as [|Hlr]; [by left|].
    destruct (decide (ml_model = "ann")) as [|Hann]; [by right|].
    rewrite lookup_insert_ne in Hids by done.
    rewrite lookup_singleton_ne in Hids by done. discriminate.
  - intros [-> | ->]; vm_compute; eauto.
Qed.

Lemma getitem_None {V} (d : gmap string V) k :
  d !! k = None -> getitem d k = Raise (KeyError k).
Proof. unfold getitem. by intros ->. Qed.

Lemma getitem_Some {V} (d : gmap string V) k v :
  d !! k = Some v -> getitem d k = Ok v.
Proof. unfold getitem. by intros ->. Qed.

Lemma registered_spec ml_model data_name :
  registered ml_model data_name <->
  match dataverse_ids !! ml_model with
  | Some ids => is_Some (ids !! data_name)
  | None => False
  end.
Proof.
  unfold registered. split.
  - intros (ids & -> & Hd). done.
  - destruct (dataverse_ids !! ml_model) as [ids|]; [eauto | done].
Qed.

(** The pretrained branch with an unknown kind stops at the first lookup. *)
Lemma LoadModel_kind_lookup_fails C data_name ml_model w w1 :
  dataverse_ids !! ml_model = None ->
  os_makedirs C "./models/pretrained/" w = (Ok tt, w1) ->
  LoadModel C data_name ml_model true w = (Raise (KeyError ml_model), w1).
Proof.
  intros Hk Hmk. unfold LoadModel, io_bind, io_lift.
  rewrite Hmk. by rewrite (getitem_None _ _ Hk).
Qed.

(** The pretrained branch with a known kind and an unknown data set. *)
Lemma LoadModel_dataset_lookup_fails C data_name ml_model ids w w1 :
  dataverse_ids !! ml_model = Some ids ->
  ids !! data_name = None ->
  os_makedirs C "./models/pretrained/" w = (Ok tt, w1) ->
  LoadModel C data_name ml_model true w =
    (Raise (UnsupportedCombination ml_model), w1).
Proof.
  intros Hk Hd Hmk. unfold LoadModel, io_bind, io_lift, io_raise.
  rewrite Hmk, (getitem_Some _ _ _ Hk).
  destruct (decide (is_Some (ids !! data_name))) as [Hs|]; [|done].
  rewrite Hd in Hs. by destruct Hs.
Qed.

(** A failing [os.makedirs] is what the caller sees. *)
Lemma LoadModel_makedirs_raises C data_name ml_model w e w1 :
  os_makedirs C "./models/pretrained/" w = (Raise e, w1) ->
  LoadModel C data_name ml_model true w = (Raise e, w1).
Proof. intros Hmk. unfold LoadModel, io_bind. by rewrite Hmk. Qed.

End LoaderFacts.

(** ** Which exceptions the torch operations raise *)

Lemma bind_only_RuntimeError {A B} (r : result A) (f : A -> result B) :
  raises_only_RuntimeError r ->
  (forall a, r = Ok a -> raises_only_RuntimeError (f a)) ->
  raises_only_RuntimeError (r ≫= f).
Proof.
  intros Hr Hf e. destruct r as [a|e']; simpl.
  - by apply Hf.
  - intros [= <-]. by apply Hr.
Qed.

Lemma fmap_only_RuntimeError {A B} (r : result A) (f : A -> B) :
  raises_only_RuntimeError r -> raises_only_RuntimeError (f <$> r).
Proof.
  intros Hr e. destruct r as [a|e']; simpl; [done|].
  intros [= <-]. by apply Hr.
Qed.

Lemma Ok_only_RuntimeError {A} (a : A) : raises_only_RuntimeError (Ok a).
Proof. by intros e. Qed.

Section TorchRaises.
Context {F : Type} `{Scalar F}.

Lemma Linear_forward_raises (l : Linear F) x :
  raises_only_RuntimeError (Linear_forward l x).
Proof.
  intros e. unfold Linear_forward.
  destruct (last (shape x)) as [d|]; [case_decide|]; intros [= <-]; eauto.
Qed.

Lemma module_forward_raises (m : module F) x :
  raises_only_RuntimeError (module_forward m x).
Proof.
  destruct m; simpl; [apply Linear_forward_raises | apply Ok_only_RuntimeError].
Qed.

Lemma Sequential_forward_raises (ms : list (module F)) x :
  raises_only_RuntimeError (Sequential_forward ms x).
Proof.
  revert x. induction ms as [|m ms IH]; intros x; simpl.
  - apply Ok_only_RuntimeError.
  - apply bind_only_RuntimeError; [apply module_forward_raises | auto].
Qed.

Lemma load_param_raises (sd : state_dict F) key p :
  raises_only_RuntimeError (load_param sd key p).
Proof.
  intros e. unfold load_param.
  destruct (sd_get sd key); [case_decide|]; intros [= <-]; eauto.
Qed.

Lemma Linear_load_raises (sd : state_dict F) prefix l :
  raises_only_RuntimeError (Linear_load sd prefix l).
Proof.
  unfold Linear_load.
  apply bind_only_RuntimeError; [apply load_param_raises | intros w _].
  apply bind_only_RuntimeError; [apply load_param_raises | intros b _].
  apply Ok_only_RuntimeError.
Qed.

Lemma check_unexpected_raises (sd : state_dict F) expected :
  raises_only_RuntimeError (check_unexpected sd expected).
Proof.
  intros e. unfold check_unexpected.
  destruct (list_find _ sd); intros [= <-]; eauto.
Qed.

Lemma LR_load_state_dict_raises (m : LogisticRegression.t F) sd :
  raises_only_RuntimeError (LogisticRegression.load_state_dict m sd).
Proof.
  unfold LogisticRegression.load_state_dict.
  apply bind_only_RuntimeError; [apply Linear_load_raises | intros l _].
  apply bind_only_RuntimeError; [apply check_unexpected_raises | intros u _].
  apply Ok_only_RuntimeError.
Qed.

Lemma load_modules_raises (sd : state_dict F) k ms :
  raises_only_RuntimeError (ArtificialNeuralNetwork.load_modules sd k ms).
Proof.
  revert k. induction ms as [|[l|a] ms IH]; intros k; simpl.
  - apply Ok_only_RuntimeError.
  - apply bind_only_RuntimeError; [apply Linear_load_raises | intros l' _].
    apply bind_only_RuntimeError; [apply IH | intros r _].
    apply Ok_only_RuntimeError.
  - apply bind_only_RuntimeError; [apply IH | intros r _].
    apply Ok_only_RuntimeError.
Qed.

Lemma ANN_load_state_dict_raises (m : ArtificialNeuralNetwork.t F) sd :
  raises_only_RuntimeError (ArtificialNeuralNetwork.load_state_dict m sd).
Proof.
  unfold ArtificialNeuralNetwork.load_state_dict.
  apply bind_only_RuntimeError; [apply load_modules_raises | intros l _].
  apply bind_only_RuntimeError; [apply check_unexpected_raises | intros u _].
  apply Ok_only_RuntimeError.
Qed.

End TorchRaises.

(** ** [LoadModel]: the three ways to fail before any download *)

(** C6: with [pretrained = False], [LoadModel] raises the
    [NotImplementedError] of the training branch (TrainingNotSupported) for
    every data set name and every model kind, registered or not; no
    collaborator is called (the world is unchanged) and no model is built. *)
Theorem LoadModel_training_not_supported
    {F : Type} `{Scalar F} {world : Type} (C : collaborators F world)
    (data_name ml_model : string) (w : world) :
  LoadModel C data_name ml_model false w = (Raise TrainingNotSupported, w).
Proof. reflexivity. Qed.

(** C7: with [pretrained = True], for a model kind the function is
    documented for ('lr' or 'ann', the keys of the registry) and a data set
    name that is not registered for that kind, [LoadModel] raises the
    UnsupportedCombination error and returns no model, before anything is
    downloaded.  [os.makedirs], which the function calls first, is taken to
    return; if it raises, its exception is raised as it is, and no model is
    returned either. *)
Theorem LoadModel_unsupported_combination
    {F : Type} `{Scalar F} {world : Type} (C : collaborators F world)
    (data_name ml_model : string) (w : world) :
  ml_model = "lr" \/ ml_model = "ann" ->
  ~ registered ml_model data_name ->
  (forall w1, os_makedirs C "./models/pretrained/" w = (Ok tt, w1) ->
     LoadModel C data_name ml_model true w =
       (Raise (UnsupportedCombination ml_model), w1)) /\
  (forall e w1, os_makedirs C "./models/pretrained/" w = (Raise e, w1) ->
     LoadModel C data_name ml_model true w = (Raise e, w1)).
Proof.
  intros Hk Hnr.
  apply dataverse_ids_keys in Hk as [ids Hids].
  assert (ids !! data_name = None) as Hd.
  { destruct (ids !! data_name) eqn:Hd; [|done].
    exfalso. apply Hnr. exists ids. eauto. }
  split.
  - intros w1 Hmk. by apply LoadModel_dataset_lookup_fails with ids.
  - intros e w1 Hmk. by apply LoadModel_makedirs_raises.
Qed.

Lemma LoadModel_unsupported_combination_witness :
  LoadModel (tracing []) "not-a-real-dataset" "lr" true [] =
    (Raise (NotImplementedError
       "The current version of >LoadModel< does not support this data set for LR models."),
     [EMakedirs "./models/pretrained/"]) /\
  LoadModel (tracing_readonly []) "not-a-real-dataset" "ann" true [] =
    (Raise (OSError "Permission denied"), [EMakedirs "./models/pretrained/"]).
Proof.
  assert (~ registered "lr" "not-a-real-dataset") as Hlr.
  { rewrite registered_spec. vm_compute. by intros [? ?]. }
  assert (~ registered "ann" "not-a-real-dataset") as Hann.
  { rewrite registered_spec. vm_compute. by intros [? ?]. }
  split.
  - apply (proj1 (LoadModel_unsupported_combination (tracing [])
                    "not-a-real-dataset" "lr" [] (or_introl eq_refl) Hlr)).
    reflexivity.
  - apply (proj2 (LoadModel_unsupported_combination (tracing_readonly [])
                    "not-a-real-dataset" "ann" [] (or_intror eq_refl) Hann)).
    reflexivity.
Defined.

Section LoaderOnly.
Context {F : Type} `{Scalar F} {world : Type}.

Lemma init_loop_raises (rnd : nat -> F) activation hidden_layers off prev acc e :
  ArtificialNeuralNetwork.init_loop rnd activation hidden_layers off prev acc
    = Raise e ->
  e = KeyError activation.
Proof.
  revert off prev acc.
  induction hidden_layers as [|layer rest IH]; intros off prev acc; simpl; [done|].
  destruct (activation_functions !! activation); [apply IH | congruence].
Qed.

Lemma ANN_init_raises (rnd : nat -> F) input_dim hidden_layers n_class activation e :
  ArtificialNeuralNetwork.init rnd input_dim hidden_layers n_class activation
    = Raise e ->
  e = KeyError activation.
Proof.
  unfold ArtificialNeuralNetwork.init.
  destruct (ArtificialNeuralNetwork.init_loop _ _ _ _ _ _)
    as [[[off prev] ms]|e'] eqn:Hloop; simpl; [done|].
  intros [= <-]. by eapply init_loop_raises.
Qed.

Lemma first_shape1_raises (sd : state_dict F) e :
  first_shape1 sd = Raise e -> is_NotImplementedError e = false.
Proof.
  unfold first_shape1. destruct sd as [|[k v] sd]; [by intros [= <-]|].
  destruct (shape v !! 1); [done | by intros [= <-]].
Qed.

Lemma Model_load_state_dict_raises (model : option (Model F)) sd e :
  Model_load_state_dict model sd = Raise e -> is_NotImplementedError e = false.
Proof.
  destruct model as [[m|m]|]; simpl; [| |by intros [= <-]]; intros He.
  - destruct (fmap_only_RuntimeError _ LR (LR_load_state_dict_raises m sd) _ He)
      as [msg ->]. done.
  - destruct (fmap_only_RuntimeError _ ANN (ANN_load_state_dict_raises m sd) _ He)
      as [msg ->]. done.
Qed.

(** Whatever the pretrained branch raises as [NotImplementedError] comes
    from its own [raise]: the kind is known and the data set is not. *)
Lemma LoadModel_NotImplementedError_inv (C : collaborators F world)
    data_name ml_model w msg w' :
  plain_collaborators C ->
  LoadModel C data_name ml_model true w = (Raise (NotImplementedError msg), w') ->
  (ml_model = "lr" \/ ml_model = "ann") /\
  ~ registered ml_model data_name /\
  NotImplementedError msg = UnsupportedCombination ml_model.
Proof.
  intros (Hmk & Hget & Hwr & Hld & Hgen).
  unfold LoadModel, io_bind, io_lift, io_raise, io_ret.
  destruct (os_makedirs C _ w) as [[[]|e] w1] eqn:E1;
    [|intros [= -> ->]; by apply Hmk in E1].
  unfold getitem at 1.
  destruct (dataverse_ids !! ml_model) as [ids|] eqn:Hids; [|done].
  destruct (decide (is_Some (ids !! data_name))) as [[id Hid]|Hno].
  - unfold getitem. rewrite Hids, Hid.
    destruct (requests_get C _ w1) as [[r|e] w2] eqn:E2;
      [|intros [= -> ->]; by apply Hget in E2].
    destruct (file_write C _ r w2) as [[[]|e] w3] eqn:E3;
      [|intros [= -> ->]; by apply Hwr in E3].
    destruct (torch_load C _ w3) as [[sd|e] w4] eqn:E4;
      [|intros [= -> ->]; by apply Hld in E4].
    destruct (first_shape1 sd) as [n|e] eqn:E5;
      [|intros [= -> ->]; by apply first_shape1_raises in E5].
    destruct (decide (ml_model = "ann")) as [Ha|Ha];
      [|destruct (decide (ml_model = "lr")) as [Hl|Hl]].
    + destruct (torch_generator C w4) as [[rnd|e] w5] eqn:E6;
        [|intros [= -> ->]; by apply Hgen in E6].
      destruct (ArtificialNeuralNetwork.init rnd n [100; 100] 2 "relu")
        as [m|e] eqn:E7;
        [|intros [= -> ->]; by apply ANN_init_raises in E7].
      intros [= E8 ->].
      by apply (Model_load_state_dict_raises (Some (ANN m))) in E8.
    + destruct (torch_generator C w4) as [[rnd|e] w5] eqn:E6;
        [|intros [= -> ->]; by apply Hgen in E6].
      intros [= E8 ->].
      by apply (Model_load_state_dict_raises (Some (LR _))) in E8.
    + by intros [=].
  - intros [= Hmsg ->]. split; [|split].
    + apply dataverse_ids_keys. eauto.
    + rewrite registered_spec, Hids. done.
    + unfold UnsupportedCombination. by rewrite Hmsg.
Qed.

End LoaderOnly.

(** C10: with [pretrained = True] and a model kind other than 'lr' and
    'ann', once the model directory exists, [LoadModel] raises the
    [KeyError] of the registry lookup, before the data set is looked at, and
    this is not the UnsupportedCombination error.  With collaborators that do
    not raise [NotImplementedError] themselves, a [NotImplementedError] out
    of the pretrained branch means a known kind with an unregistered data
    set name. *)
Theorem LoadModel_unknown_kind_KeyError
    {F : Type} `{Scalar F} {world : Type} (C : collaborators F world)
    (data_name ml_model : string) (w : world) :
  (ml_model <> "lr" -> ml_model <> "ann" ->
   forall w1, os_makedirs C "./models/pretrained/" w = (Ok tt, w1) ->
     LoadModel C data_name ml_model true w = (Raise (KeyError ml_model), w1) /\
     KeyError ml_model <> UnsupportedCombination ml_model) /\
  (plain_collaborators C ->
   forall msg w', LoadModel C data_name ml_model true w
                    = (Raise (NotImplementedError msg), w') ->
     (ml_model = "lr" \/ ml_model = "ann") /\
     ~ registered ml_model data_name /\
     NotImplementedError msg = UnsupportedCombination ml_model).
Proof.
  split.
  - intros Hlr Hann w1 Hmk. split; [|discriminate].
    apply LoadModel_kind_lookup_fails; [|done].
    destruct (dataverse_ids !! ml_model) eqn:Hk; [|done].
    assert (is_Some (dataverse_ids !! ml_model)) as Hs by eauto.
    apply dataverse_ids_keys in Hs as [?|?]; congruence.
  - intros HC msg w'. by apply LoadModel_NotImplementedError_inv.
Qed.

Lemma tracing_plain (sd : state_dict R) : plain_collaborators (tracing sd).
Proof. repeat split; intros; intros w e w'; by intros [=]. Qed.

Lemma LoadModel_unknown_kind_KeyError_witness :
  (LoadModel (tracing []) "adult" "svm" true [] =
     (Raise (KeyError "svm"), [EMakedirs "./models/pretrained/"]) /\
   KeyError "svm" <> UnsupportedCombination "svm") /\
  (("lr" = "lr" \/ "lr" = "ann") /\
   ~ registered "lr" "mnist" /\
   NotImplementedError
     "The current version of >LoadModel< does not support this data set for LR models."
     = UnsupportedCombination "lr").
Proof.
  split.
  - apply (proj1 (LoadModel_unknown_kind_KeyError (tracing []) "adult" "svm" []));
      [discriminate | discriminate | reflexivity].
  - apply (proj2 (LoadModel_unknown_kind_KeyError (tracing []) "mnist" "lr" [])
             (tracing_plain [])
             "The current version of >LoadModel< does not support this data set for LR models."
             [EMakedirs "./models/pretrained/"]).
    reflexivity.
Defined.

(** ** Shapes and rows *)

Lemma numel_snoc (s : list nat) (c : nat) : numel (s ++ [c]) = numel s * c.
Proof.
  unfold numel. induction s as [|d s IH]; simpl; [lia|]. rewrite IH. lia.
Qed.

Lemma shape_split (s : list nat) (d : nat) :
  last s = Some d -> s = removelast s ++ [d].
Proof.
  intros Hl. apply last_Some in Hl as [s' ->]. by rewrite removelast_last.
Qed.

Lemma length_chunks {A} (n k : nat) (l : list A) : length (chunks n k l) = k.
Proof. revert l. induction k as [|k IH]; intros l; simpl; [done|]. by rewrite IH. Qed.

Lemma chunks_rows {A} (n k : nat) (l : list A) :
  k * n <= length l -> Forall (fun r => length r = n) (chunks n k l).
Proof.
  revert l. induction k as [|k IH]; intros l Hl; simpl; constructor.
  - rewrite length_take. lia.
  - apply IH. rewrite length_drop. lia.
Qed.

Lemma chunks_concat {A} (n : nat) (rs : list (list A)) (tl : list A) :
  Forall (fun r => length r = n) rs ->
  chunks n (length rs) (concat rs ++ tl) = rs.
Proof.
  induction 1 as [|r rs Hr _ IH]; simpl; [done|].
  rewrite <- (assoc_L (++)).
  rewrite take_app_length' by done. rewrite drop_app_length' by done.
  by rewrite IH.
Qed.

Lemma chunks_concat_exact {A} (n k : nat) (rs : list (list A)) :
  length rs = k ->
  Forall (fun r => length r = n) rs ->
  chunks n k (concat rs) = rs.
Proof.
  intros <- Hrs. rewrite <- (app_nil_r (concat rs)). by apply chunks_concat.
Qed.

Lemma length_concat_rows {A} (n : nat) (rs : list (list A)) :
  Forall (fun r => length r = n) rs -> length (concat rs) = length rs * n.
Proof.
  induction 1 as [|r rs Hr _ IH]; simpl; [done|].
  rewrite length_app, IH, Hr. lia.
Qed.

(** ** Logistic regression *)

Section LRFacts.
Context {F : Type} `{Scalar F}.

Lemma nn_Linear_wf (rnd : nat -> F) off i o : Linear_wf (nn_Linear rnd off i o).
Proof.
  unfold Linear_wf, tensor_wf, nn_Linear, numel; simpl.
  rewrite !length_map, !length_seq. repeat split; lia.
Qed.

Lemma LR_init_wf (rnd : nat -> F) input_dim n_class :
  LogisticRegression.wf (LogisticRegression.init rnd input_dim n_class).
Proof.
  split; [done|]. split; [done|]. apply nn_Linear_wf.
Qed.

End LRFacts.

(** C5: for a logistic regression with two classes,
    [return_ground_truth_importance] returns a vector of length [input_dim]
    whose entry [j] is [weight[1, j] - weight[0, j]]. *)
Theorem return_ground_truth_importance_binary
    {F : Type} `{Scalar F} (m : LogisticRegression.t F) :
  LogisticRegression.wf m ->
  LogisticRegression.n_class m = 2 ->
  exists g,
    LogisticRegression.return_ground_truth_importance m = Ok g /\
    shape g = [LogisticRegression.input_dim m] /\
    length (data g) = LogisticRegression.input_dim m /\
    forall j, j < LogisticRegression.input_dim m ->
      exists w1 w0,
        entry (weight (LogisticRegression.linear m)) 1 j = Some w1 /\
        entry (weight (LogisticRegression.linear m)) 0 j = Some w0 /\
        data g !! j = Some (fsub w1 w0).
Proof.
  intros (Hin & Hout & Hsw & Hsb & Hw & Hb) Hc.
  unfold LogisticRegression.return_ground_truth_importance, select0, entry.
  rewrite Hsw, Hout, Hin, Hc. set (d := LogisticRegression.input_dim m).
  unfold tensor_wf in Hw. rewrite Hsw, Hout, Hin, Hc in Hw.
  fold d in Hw. unfold numel in *. simpl in Hw |- *.
  set (W := data (weight (LogisticRegression.linear m))) in *.
  eexists. split; [reflexivity|]. simpl. split; [done|].
  split.
  - rewrite length_zip_with, !length_take, !length_drop. lia.
  - intros j Hj.
    destruct (lookup_lt_is_Some_2 W (d + j)) as [w1 Hw1]; [lia|].
    destruct (lookup_lt_is_Some_2 W j) as [w0 Hw0]; [lia|].
    exists w1, w0.
    rewrite !decide_True by lia.
    replace (d + 0 + j) with (d + j) by lia.
    split; [done|]. split; [done|].
    rewrite lookup_zip_with.
    rewrite !lookup_take_lt by lia. rewrite !lookup_drop.
    replace ((d * 1 + 0) + j) with (d + j) by lia.
    rewrite Hw1. simpl. by rewrite Hw0.
Qed.

Lemma lr_example_wf : LogisticRegression.wf lr_example.
Proof. by repeat split. Qed.

Example lr_example_importance :
  LogisticRegression.return_ground_truth_importance lr_example
    = Ok (Tensor [2] [3 - 1; 5 - 2]%R).
Proof. reflexivity. Qed.

Lemma return_ground_truth_importance_binary_witness :
  exists g,
    LogisticRegression.return_ground_truth_importance lr_example = Ok g /\
    shape g = [2] /\
    length (data g) = 2 /\
    forall j, j < 2 ->
      exists w1 w0,
        entry (weight (LogisticRegression.linear lr_example)) 1 j = Some w1 /\
        entry (weight (LogisticRegression.linear lr_example)) 0 j = Some w0 /\
        data g !! j = Some (w1 - w0)%R.
Proof.
  exact (return_ground_truth_importance_binary lr_example lr_example_wf eq_refl).
Defined.

(** ** The softmax formula in exact arithmetic *)

(** Over the real numbers the entries of a softmax row sum to 1.  This is a
    fact about the formula; float32 rounds, and the sum of a row that
    [forward] returns is 1 only up to that rounding. *)

Lemma foldl_Rplus (a : R) (l : list R) : foldl Rplus a l = (a + Rsum l)%R.
Proof.
  revert a. induction l as [|v l IH]; intros a; simpl; [lra|].
  rewrite IH. lra.
Qed.

Lemma softmax_row_formula (r : list R) : softmax_row r = softmax_formula r.
Proof.
  unfold softmax_row, softmax_formula. simpl.
  rewrite foldl_Rplus. by rewrite Rplus_0_l.
Qed.

Lemma Rsum_exp_pos (r : list R) : r <> [] -> (0 < Rsum (map exp r))%R.
Proof.
  destruct r as [|v r]; [done|]. intros _. simpl.
  assert (0 <= Rsum (map exp r))%R as Hr.
  { induction r as [|u r IH]; simpl; [lra|].
    pose proof (exp_pos u). lra. }
  pose proof (exp_pos v). lra.
Qed.

Lemma Rsum_map_div (f : R -> R) (s : R) (r : list R) :
  Rsum (map (fun v => (f v / s)%R) r) = (Rsum (map f r) / s)%R.
Proof.
  induction r as [|v r IH]; simpl; [lra|]. rewrite IH. lra.
Qed.

Lemma softmax_row_sum (r : list R) : r <> [] -> Rsum (softmax_row r) = 1%R.
Proof.
  intros Hr. rewrite softmax_row_formula. unfold softmax_formula.
  rewrite (Rsum_map_div exp). apply Rsum_exp_pos in Hr.
  apply Rdiv_diag. lra.
Qed.

Lemma length_softmax_row {F : Type} `{Scalar F} (r : list F) :
  length (softmax_row r) = length r.
Proof. unfold softmax_row. by rewrite length_map. Qed.

(** ** The affine layer on a well-formed [nn.Linear] *)

Section LinearFacts.
Context {F : Type} `{Scalar F}.

Lemma length_affine_row (l : Linear F) (r : list F) :
  Linear_wf l -> length (affine_row l r) = out_features l.
Proof.
  intros (_ & Hsb & _ & Hb). unfold affine_row, weight_rows.
  rewrite length_zip_with, length_chunks.
  unfold tensor_wf in Hb. rewrite Hsb in Hb. rewrite Hb. simpl. lia.
Qed.

Lemma Linear_forward_ok (l : Linear F) (x : tensor F) :
  last (shape x) = Some (in_features l) ->
  Linear_forward l x =
    Ok (Tensor (removelast (shape x) ++ [out_features l])
          (concat (map (affine_row l)
                     (chunks (in_features l) (numel (removelast (shape x)))
                        (data x))))).
Proof. intros Hl. unfold Linear_forward. rewrite Hl. by rewrite decide_True. Qed.

Lemma affine_rows (l : Linear F) (rs : list (list F)) :
  Linear_wf l ->
  Forall (fun r => length r = out_features l) (map (affine_row l) rs).
Proof.
  intros Hl. apply Forall_map, Forall_forall. intros r _. simpl.
  by apply length_affine_row.
Qed.

(** The result of [Linear_forward] is a well-formed tensor. *)
Lemma Linear_forward_wf (l : Linear F) (x z : tensor F) :
  Linear_wf l ->
  Linear_forward l x = Ok z ->
  tensor_wf z /\ last (shape z) = Some (out_features l).
Proof.
  intros Hl. unfold Linear_forward.
  destruct (last (shape x)) as [d|]; [|done]. case_decide; [|done].
  intros [= <-]. unfold tensor_wf. simpl. split; [|by rewrite last_snoc].
  rewrite numel_snoc.
  rewrite (length_concat_rows (out_features l)) by by apply affine_rows.
  by rewrite length_map, length_chunks.
Qed.

End LinearFacts.

(** ** Softmax of a tensor, row by row *)

Section SoftmaxFacts.
Context {F : Type} `{Scalar F}.

Lemma softmax_rows (s : list nat) (c : nat) (rs : list (list F)) :
  length rs = numel s ->
  Forall (fun r => length r = c) rs ->
  softmax (Tensor (s ++ [c]) (concat rs))
    = Tensor (s ++ [c]) (concat (map softmax_row rs)).
Proof.
  intros Hk Hrs. unfold softmax. simpl.
  rewrite last_snoc, removelast_last.
  by rewrite (chunks_concat_exact c (numel s) rs).
Qed.

Lemma softmax_row_rows (c : nat) (rs : list (list F)) :
  Forall (fun r => length r = c) rs ->
  Forall (fun r => length r = c) (map softmax_row rs).
Proof.
  intros Hrs. apply Forall_map. eapply Forall_impl; [exact Hrs|].
  intros r Hr. simpl. by rewrite length_softmax_row.
Qed.

End SoftmaxFacts.


(** ** [LogisticRegression.predict] and the batch dimension *)

(** C2, as stated, fails twice.  A list with a leading batch dimension of
    size 1 is not squeezed at all: the probabilities keep the shape (1, 2).
    A tensor of shape (1, 1, 2) loses both dimensions of size 1, not only the
    leading one: the probabilities have the shape (2,). *)
Lemma LR_predict_not_leading_squeeze :
  nd_shape <$> LogisticRegression.predict lr_example
                 (ArrayLike (NdArray [1; 2] [1; 0]%R)) = Ok [1; 2] /\
  nd_shape <$> LR_predict_as_specified lr_example
                 (ArrayLike (NdArray [1; 2] [1; 0]%R)) = Ok [2] /\
  nd_shape <$> LogisticRegression.predict lr_example
                 (TorchTensor (Tensor [1; 1; 2] [1; 0]%R)) = Ok [2] /\
  nd_shape <$> LR_predict_as_specified lr_example
                 (TorchTensor (Tensor [1; 1; 2] [1; 0]%R)) = Ok [1; 2] /\
  LogisticRegression.predict lr_example (ArrayLike (NdArray [1; 2] [1; 0]%R))
    <> LR_predict_as_specified lr_example (ArrayLike (NdArray [1; 2] [1; 0]%R)) /\
  LogisticRegression.predict lr_example (TorchTensor (Tensor [1; 1; 2] [1; 0]%R))
    <> LR_predict_as_specified lr_example (TorchTensor (Tensor [1; 1; 2] [1; 0]%R)).
Proof.
  repeat split; try reflexivity.
  - intros Heq. apply (f_equal (fmap nd_shape)) in Heq. discriminate Heq.
  - intros Heq. apply (f_equal (fmap nd_shape)) in Heq. discriminate Heq.
Qed.

Lemma filter_all {A} (P : A -> Prop) `{forall a, Decision (P a)} (l : list A) :
  Forall P l -> filter P l = l.
Proof.
  induction 1 as [|a l Ha _ IH]; [done|].
  rewrite filter_cons, decide_True by done. by rewrite IH.
Qed.

Lemma squeeze_no_singleton {F} (t : tensor F) : 1 ∉ shape t -> squeeze t = t.
Proof.
  intros Hn. destruct t as [s d]. unfold squeeze. simpl in *.
  rewrite filter_all; [done|].
  apply Forall_forall. intros k Hk ->. done.
Qed.

Lemma squeeze_one_leading {F} (t : tensor F) (rest : list nat) :
  shape t = 1 :: rest -> 1 ∉ rest -> squeeze t = squeeze_leading t.
Proof.
  intros Hs Hn. unfold squeeze, squeeze_leading. rewrite Hs.
  rewrite filter_cons, decide_False by (intros Hne; by apply Hne).
  rewrite filter_all; [done|].
  apply Forall_forall. intros k Hk ->. done.
Qed.

Lemma squeeze_leading_no_singleton {F} (t : tensor F) :
  1 ∉ shape t -> squeeze_leading t = t.
Proof.
  intros Hn. unfold squeeze_leading. destruct (shape t) as [|[|[|d]] s]; try done.
  exfalso. apply Hn. by left.
Qed.

Lemma LR_forward_typed_float32 {F : Type} `{Scalar F}
    (m : LogisticRegression.t F) (t : tensor F) :
  LogisticRegression.forward_typed m (Float32, t) = LogisticRegression.forward m t.
Proof. reflexivity. Qed.

Lemma LR_forward_typed_other {F : Type} `{Scalar F}
    (m : LogisticRegression.t F) (dt : dtype) (t : tensor F) :
  dt <> Float32 ->
  LogisticRegression.forward_typed m (dt, t)
    = Raise (RuntimeError "mat1 and mat2 must have the same dtype").
Proof.
  intros Hdt. unfold LogisticRegression.forward_typed, require_float32. simpl.
  by rewrite decide_False.
Qed.

(** C2 (amended): [LogisticRegression.predict] returns a numpy array
    whenever it returns.  An array-like input is converted to float32 and
    not squeezed: if its last dimension is [input_dim] the result has the
    shape of the input with the last dimension replaced by [n_class].  A
    tensor input is passed through [torch.squeeze], which removes every
    dimension of size 1, and is not converted: a float32 tensor is then
    treated like the array of its entries in the squeezed shape, and a tensor
    of any other dtype makes [predict] raise a [RuntimeError].  When a
    float32 tensor has no dimension of size 1 except possibly one leading
    one, the squeeze is that of one leading batch dimension. *)
Theorem LR_predict_removes_all_singletons
    {F : Type} `{Scalar F} (m : LogisticRegression.t F) :
  LogisticRegression.wf m ->
  (forall a, last (nd_shape a) = Some (LogisticRegression.input_dim m) ->
     exists y,
       LogisticRegression.predict m (ArrayLike a) = Ok y /\
       numpy <$> LogisticRegression.forward m (from_numpy a) = Ok y /\
       nd_shape y = removelast (nd_shape a) ++ [LogisticRegression.n_class m]) /\
  (forall t,
     LogisticRegression.predict m (TorchTensor t)
       = LogisticRegression.predict m
           (ArrayLike (NdArray (filter (fun d => d <> 1) (shape t)) (data t)))) /\
  (forall t rest,
     1 ∉ rest -> shape t = 1 :: rest \/ shape t = rest ->
     LogisticRegression.predict m (TorchTensor t)
       = LR_predict_as_specified m (TorchTensor t)) /\
  (forall dt t,
     (dt = Float32 ->
        LogisticRegression.predict m (TorchTensorOf dt t)
          = LogisticRegression.predict m (TorchTensor t)) /\
     (dt <> Float32 ->
        exists msg, LogisticRegression.predict m (TorchTensorOf dt t)
                      = Raise (RuntimeError msg))).
Proof.
  intros (Hin & Hout & Hl). split; [|split; [|split]].
  - intros a Ha. unfold LogisticRegression.predict.
    rewrite LR_forward_typed_float32. unfold LogisticRegression.forward.
    rewrite Linear_forward_ok by (by rewrite Hin).
    eexists. split; [reflexivity|]. split; [reflexivity|].
    simpl. unfold softmax. simpl. rewrite last_snoc. simpl. by rewrite Hout.
  - intros t. reflexivity.
  - intros t rest Hn [Hs|Hs];
      unfold LogisticRegression.predict, LR_predict_as_specified;
      rewrite LR_forward_typed_float32.
    + by rewrite (squeeze_one_leading t rest).
    + rewrite <- Hs in Hn.
      by rewrite squeeze_no_singleton, squeeze_leading_no_singleton.
  - intros dt t. split.
    + by intros ->.
    + intros Hdt. unfold LogisticRegression.predict.
      rewrite LR_forward_typed_other by done. simpl. eauto.
Qed.

Lemma LR_predict_removes_all_singletons_witness :
  (exists y,
     LogisticRegression.predict lr_example (ArrayLike (NdArray [1; 2] [1; 0]%R))
       = Ok y /\
     numpy <$> LogisticRegression.forward lr_example
                 (from_numpy (NdArray [1; 2] [1; 0]%R)) = Ok y /\
     nd_shape y = [1; 2]) /\
  LogisticRegression.predict lr_example (TorchTensor (Tensor [1; 2] [1; 0]%R))
    = LR_predict_as_specified lr_example (TorchTensor (Tensor [1; 2] [1; 0]%R)) /\
  LogisticRegression.predict lr_example (TorchTensorOf Float32 (Tensor [1; 2] [1; 0]%R))
    = LogisticRegression.predict lr_example (TorchTensor (Tensor [1; 2] [1; 0]%R)) /\
  (exists msg,
     LogisticRegression.predict lr_example (TorchTensorOf Int64 (Tensor [1; 2] [1; 0]%R))
       = Raise (RuntimeError msg)).
Proof.
  pose proof (LR_predict_removes_all_singletons lr_example lr_example_wf)
    as (Ha & _ & Hs & Hdt).
  split; [|split; [|split]].
  - exact (Ha (NdArray [1; 2] [1; 0]%R) eq_refl).
  - apply (Hs (Tensor [1; 2] [1; 0]%R) [2]); [|by left].
    intros Hin. apply list_elem_of_singleton in Hin. discriminate Hin.
  - apply (proj1 (Hdt Float32 (Tensor [1; 2] [1; 0]%R))). reflexivity.
  - apply (proj2 (Hdt Int64 (Tensor [1; 2] [1; 0]%R))). discriminate.
Defined.

(** ** The multi-layer network: structure *)

Section ANNFacts.
Context {F : Type} `{Scalar F}.
Import ArtificialNeuralNetwork.

Lemma init_loop_layers (rnd : nat -> F) activation hidden_layers off prev acc
    off' prev' ms :
  init_loop rnd activation hidden_layers off prev acc = Ok (off', prev', ms) ->
  exists tail, ms = acc ++ tail /\
    forall l n_class, Linear_wf l -> in_features l = prev' ->
      out_features l = n_class ->
      layers_ok prev hidden_layers n_class (tail ++ [MLinear l]).
Proof.
  revert off prev acc.
  induction hidden_layers as [|layer rest IH]; intros off prev acc; simpl.
  - intros [= <- <- <-]. exists []. rewrite app_nil_r. split; [done|].
    intros l n_class Hl Hin Hout. simpl. eauto.
  - destruct (activation_functions !! activation) as [a|]; [|done].
    intros Hloop. apply IH in Hloop as (tail & -> & Htail).
    exists (MLinear (nn_Linear rnd off prev layer) :: MActivation a :: tail).
    split; [by rewrite <- (assoc_L (++))|].
    intros l n_class Hl Hin Hout. simpl.
    eexists _, _, _. split; [reflexivity|].
    split; [apply nn_Linear_wf|]. split; [done|]. split; [done|]. by apply Htail.
Qed.

Lemma init_wf (rnd : nat -> F) input_dim hidden_layers n_class activation m :
  init rnd input_dim hidden_layers n_class activation = Ok m ->
  wf input_dim hidden_layers n_class m.
Proof.
  unfold init, wf.
  destruct (init_loop _ _ _ _ _ _) as [[[off prev] ms]|e] eqn:Hloop; [|done].
  simpl. intros [= <-]. simpl.
  apply init_loop_layers in Hloop as (tail & -> & Htail). simpl.
  apply Htail; [apply nn_Linear_wf | done | done].
Qed.

(** The constructor fails only on the lookup of the activation, and only
    if there is a hidden layer to give it to. *)
Lemma init_ok (rnd : nat -> F) input_dim hidden_layers n_class activation :
  is_Some (activation_functions !! activation) \/ hidden_layers = [] ->
  exists m, init rnd input_dim hidden_layers n_class activation = Ok m.
Proof.
  intros Hact. unfold init.
  assert (forall off prev acc, exists r,
            init_loop rnd activation hidden_layers off prev acc = Ok r) as Hloop.
  { induction hidden_layers as [|layer rest IH]; intros off prev acc; simpl; [eauto|].
    destruct Hact as [[a Ha]|?]; [|done]. rewrite Ha. apply IH. left. eauto. }
  destruct (Hloop 0 input_dim []) as [[[off prev] ms] ->]. simpl. eauto.
Qed.

Lemma layers_ok_length prev hidden_layers n_class (ms : list (module F)) :
  layers_ok prev hidden_layers n_class ms ->
  length ms = 2 * length hidden_layers + 1.
Proof.
  revert prev ms. induction hidden_layers as [|layer rest IH]; intros prev ms; simpl.
  - by intros (l & -> & _).
  - intros (l & a & ms' & -> & _ & _ & _ & Hms'). simpl.
    rewrite (IH _ _ Hms'). lia.
Qed.

Lemma wf_hidden_count input_dim hidden_layers n_class (m : t F) :
  wf input_dim hidden_layers n_class m ->
  hidden_count m = Z.of_nat (length hidden_layers).
Proof.
  intros Hwf. unfold hidden_count. rewrite (layers_ok_length _ _ _ _ Hwf).
  symmetry. apply Z.div_unique with 1%Z; lia.
Qed.

Lemma hidden_count_nonneg (m : t F) : (0 <= hidden_count m)%Z.
Proof. unfold hidden_count. apply Z.div_pos; lia. Qed.

Lemma hidden_count_bound (m : t F) :
  (2 * hidden_count m <= Z.of_nat (length (network m)))%Z.
Proof. unfold hidden_count. apply Z.mul_div_le. lia. Qed.

End ANNFacts.

(** ** Running a prefix of the network *)

Lemma py_slice_to_from {A} (l : list A) (k : Z) :
  py_slice_to l k ++ py_slice_from l k = l.
Proof. apply take_drop. Qed.

Section SequentialFacts.
Context {F : Type} `{Scalar F}.
Import ArtificialNeuralNetwork.

Lemma Sequential_forward_app (ms1 ms2 : list (module F)) (x : tensor F) :
  Sequential_forward (ms1 ++ ms2) x =
  Sequential_forward ms1 x ≫= Sequential_forward ms2.
Proof.
  revert x. induction ms1 as [|m ms1 IH]; intros x; simpl; [done|].
  destruct (module_forward m x) as [y|e]; simpl; [apply IH | done].
Qed.

(** On a well-formed network every prefix runs on an input of the right
    width. *)
Lemma prefix_ok prev hidden_layers n_class (ms : list (module F)) x n :
  layers_ok prev hidden_layers n_class ms ->
  last (shape x) = Some prev ->
  exists y, Sequential_forward (take n ms) x = Ok y.
Proof.
  revert prev ms x n.
  induction hidden_layers as [|layer rest IH]; intros prev ms x n; simpl.
  - intros (l & -> & Hl & Hin & Hout) Hx.
    destruct n as [|n]; simpl; [eauto|].
    rewrite Linear_forward_ok by (by rewrite Hin). simpl.
    rewrite take_nil. simpl. eauto.
  - intros (l & a & ms' & -> & Hl & Hin & Hout & Hms') Hx.
    destruct n as [|[|n]]; simpl; [eauto| |].
    + rewrite Linear_forward_ok by (by rewrite Hin). simpl. eauto.
    + rewrite Linear_forward_ok by (by rewrite Hin). simpl.
      apply (IH layer); [done|]. simpl. by rewrite last_snoc, Hout.
Qed.

(** The whole network maps the last dimension to [n_class]. *)
Lemma network_ok prev hidden_layers n_class (ms : list (module F)) x :
  layers_ok prev hidden_layers n_class ms ->
  last (shape x) = Some prev ->
  exists z, Sequential_forward ms x = Ok z /\
    shape z = removelast (shape x) ++ [n_class] /\
    exists rs, data z = concat rs /\ length rs = numel (removelast (shape x)) /\
      Forall (fun r => length r = n_class) rs.
Proof.
  revert prev ms x.
  induction hidden_layers as [|layer rest IH]; intros prev ms x; simpl.
  - intros (l & -> & Hl & Hin & Hout) Hx. simpl.
    rewrite Linear_forward_ok by (by rewrite Hin). simpl.
    eexists. split; [reflexivity|]. simpl. rewrite Hout. split; [done|].
    eexists. split; [reflexivity|]. split.
    + by rewrite length_map, length_chunks.
    + rewrite <- Hout. by apply affine_rows.
  - intros (l & a & ms' & -> & Hl & Hin & Hout & Hms') Hx. simpl.
    rewrite Linear_forward_ok by (by rewrite Hin). simpl.
    edestruct (IH layer ms') as (z & Hz & Hsz & Hrs); [done| |].
    2:{ exists z. split; [exact Hz|]. simpl in Hsz, Hrs.
        rewrite removelast_last in Hsz, Hrs. done. }
    simpl. by rewrite last_snoc, Hout.
Qed.

Lemma predict_layer_in_range (m : t F) x (i : Z) (post_act : bool) :
  (i < hidden_count m)%Z ->
  predict_layer m x i post_act =
    Sequential_forward (py_slice_to (network m) (2 * i + Z.b2z post_act + 1)) x.
Proof. intros Hi. unfold predict_layer. by rewrite decide_False by lia. Qed.

Lemma predict_layer_out_of_range (m : t F) x (i : Z) (post_act : bool) :
  (i >= hidden_count m)%Z ->
  predict_layer m x i post_act = Raise (layer_error m i).
Proof. intros Hi. unfold predict_layer. by rewrite decide_True. Qed.

(** The layers after the activation of hidden layer [i], run on what
    [predict_layer] returns, finish the computation of the logits; an error
    in the prefix is the error of the whole network. *)
Lemma predict_layer_then_rest (m : t F) x (i : Z) :
  (i < hidden_count m)%Z ->
  predict_layer m x i true
    ≫= Sequential_forward (py_slice_from (network m) (2 * i + 2))
  = predict_with_logits m x.
Proof.
  intros Hi. rewrite predict_layer_in_range by done. simpl.
  replace (2 * i + 1 + 1)%Z with (2 * i + 2)%Z by lia.
  rewrite <- Sequential_forward_app. by rewrite py_slice_to_from.
Qed.

End SequentialFacts.

(** ** [predict_layer] *)

(** C1: on a network with the hidden widths [hidden_layers], for a hidden
    layer index [0 <= i < len(hidden_layers)] and an input whose last
    dimension is [input_dim], [predict_layer(x, i, post_act=True)] returns a
    tensor [y], the output of the first [i + 1] (affine, activation) pairs,
    and the remaining layers [network[2i+2:]] applied to [y] return exactly
    [predict_with_logits(x)]. *)
Theorem predict_layer_round_trip
    {F : Type} `{Scalar F} (input_dim : nat) (hidden_layers : list nat)
    (n_class : nat) (m : ArtificialNeuralNetwork.t F) (x : tensor F) (i : Z) :
  ArtificialNeuralNetwork.wf input_dim hidden_layers n_class m ->
  (0 <= i < Z.of_nat (length hidden_layers))%Z ->
  last (shape x) = Some input_dim ->
  let rest := py_slice_from (ArtificialNeuralNetwork.network m) (2 * i + 2) in
  length rest + 2 * (Z.to_nat i + 1) = length (ArtificialNeuralNetwork.network m) /\
  ArtificialNeuralNetwork.predict_layer m x i true ≫= Sequential_forward rest
    = ArtificialNeuralNetwork.predict_with_logits m x /\
  exists y z,
    ArtificialNeuralNetwork.predict_layer m x i true = Ok y /\
    Sequential_forward rest y = Ok z /\
    ArtificialNeuralNetwork.predict_with_logits m x = Ok z.
Proof.
  intros Hwf Hi Hx rest.
  pose proof (wf_hidden_count _ _ _ _ Hwf) as Hc.
  pose proof (layers_ok_length _ _ _ _ Hwf) as Hlen.
  assert (ArtificialNeuralNetwork.predict_layer m x i true
            ≫= Sequential_forward rest
          = ArtificialNeuralNetwork.predict_with_logits m x) as Hrt.
  { apply predict_layer_then_rest. lia. }
  split; [|split; [exact Hrt|]].
  - unfold rest, py_slice_from, py_bound. rewrite length_drop.
    rewrite decide_False by lia. lia.
  - destruct (prefix_ok _ _ _ _ x
                (py_bound (length (ArtificialNeuralNetwork.network m)) (2 * i + 1 + 1))
                Hwf Hx) as [y Hy].
    destruct (network_ok _ _ _ _ x Hwf Hx) as (z & Hz & _).
    exists y, z.
    assert (ArtificialNeuralNetwork.predict_layer m x i true = Ok y) as Hpl.
    { rewrite predict_layer_in_range by lia. exact Hy. }
    split; [exact Hpl|]. split; [|exact Hz].
    rewrite Hpl in Hrt. simpl in Hrt. rewrite Hrt. exact Hz.
Qed.

Lemma ann_example_wf : ArtificialNeuralNetwork.wf 2 [2] 2 ann_example.
Proof.
  unfold ArtificialNeuralNetwork.wf. simpl.
  eexists _, _, _. split; [reflexivity|].
  split; [by repeat split|]. split; [done|]. split; [done|].
  eexists. split; [reflexivity|]. by repeat split.
Qed.

Lemma predict_layer_round_trip_witness :
  let rest := py_slice_from (ArtificialNeuralNetwork.network ann_example) (2 * 0 + 2) in
  length rest + 2 * (Z.to_nat 0 + 1)
    = length (ArtificialNeuralNetwork.network ann_example) /\
  ArtificialNeuralNetwork.predict_layer ann_example (Tensor [2] [1; -1]%R) 0 true
    ≫= Sequential_forward rest
    = ArtificialNeuralNetwork.predict_with_logits ann_example (Tensor [2] [1; -1]%R) /\
  exists y z,
    ArtificialNeuralNetwork.predict_layer ann_example (Tensor [2] [1; -1]%R) 0 true
      = Ok y /\
    Sequential_forward rest y = Ok z /\
    ArtificialNeuralNetwork.predict_with_logits ann_example (Tensor [2] [1; -1]%R)
      = Ok z.
Proof.
  exact (predict_layer_round_trip 2 [2] 2 ann_example (Tensor [2] [1; -1]%R) 0
           ann_example_wf ltac:(simpl; lia) eq_refl).
Defined.

Example predict_layer_example_post :
  ArtificialNeuralNetwork.predict_layer ann_example (Tensor [2] [1; -1]%R) 0 true
  = Ok (Tensor [2] [Rmax 0 (0 + 1 * 1 + -1 * 0 + 0);
                    Rmax 0 (0 + 1 * 0 + -1 * 1 + 0)]%R).
Proof. reflexivity. Qed.

Example predict_layer_example_pre :
  ArtificialNeuralNetwork.predict_layer ann_example (Tensor [2] [1; -1]%R) 0 false
  = Ok (Tensor [2] [0 + 1 * 1 + -1 * 0 + 0; 0 + 1 * 0 + -1 * 1 + 0]%R).
Proof. reflexivity. Qed.

Example predict_layer_example_too_large :
  ArtificialNeuralNetwork.predict_layer ann_example (Tensor [2] [1; -1]%R) 1 true
  = Raise (ValueError
      "The model has only 1 hidden layers, but hidden layer 1 was requested (indexing starts at 0).").
Proof. reflexivity. Qed.

(** Negative indices count the modules from the end of the network. *)
Example predict_layer_example_negative :
  ArtificialNeuralNetwork.predict_layer ann_example (Tensor [2] [1; -1]%R) (-1) false
  = ArtificialNeuralNetwork.predict_layer ann_example (Tensor [2] [1; -1]%R) 0 true
  /\
  ArtificialNeuralNetwork.predict_layer ann_example (Tensor [2] [1; -1]%R) (-2) true
  = ArtificialNeuralNetwork.predict_layer ann_example (Tensor [2] [1; -1]%R) 0 false.
Proof. split; reflexivity. Qed.

(** C3: on a network with [H = len(hidden_layers)] hidden layers,
    [predict_layer] raises a [ValueError] exactly when
    [hidden_layer_idx >= H], and the message names [H] as the number of
    hidden layers; it raises for [hidden_layer_idx = H], and for
    [hidden_layer_idx = H - 1] it returns a tensor on every input whose last
    dimension is [input_dim]. *)
Theorem predict_layer_index_check
    {F : Type} `{Scalar F} (input_dim : nat) (hidden_layers : list nat)
    (n_class : nat) (m : ArtificialNeuralNetwork.t F) (x : tensor F)
    (hidden_layer_idx : Z) (post_act : bool) :
  ArtificialNeuralNetwork.wf input_dim hidden_layers n_class m ->
  let H := Z.of_nat (length hidden_layers) in
  let message (idx : Z) :=
    "The model has only " +:+ pretty H +:+ " hidden layers, but hidden layer "
      +:+ pretty idx +:+ " was requested (indexing starts at 0)." in
  ((exists msg, ArtificialNeuralNetwork.predict_layer m x hidden_layer_idx post_act
                  = Raise (ValueError msg))
     <-> (hidden_layer_idx >= H)%Z) /\
  ((hidden_layer_idx >= H)%Z ->
     ArtificialNeuralNetwork.predict_layer m x hidden_layer_idx post_act
       = Raise (ValueError (message hidden_layer_idx))) /\
  ArtificialNeuralNetwork.predict_layer m x H post_act
    = Raise (ValueError (message H)) /\
  (last (shape x) = Some input_dim ->
     exists y, ArtificialNeuralNetwork.predict_layer m x (H - 1) post_act = Ok y).
Proof.
  intros Hwf Hn message.
  pose proof (wf_hidden_count _ _ _ _ Hwf) as Hc. fold Hn in Hc.
  assert (forall idx, (idx >= Hn)%Z ->
            ArtificialNeuralNetwork.predict_layer m x idx post_act
              = Raise (ValueError (message idx))) as Hge.
  { intros idx Hidx. rewrite predict_layer_out_of_range by lia.
    unfold ArtificialNeuralNetwork.layer_error, message. by rewrite Hc. }
  split; [split|split; [|split]].
  - intros [msg Hmsg].
    destruct (decide (hidden_layer_idx >= Hn)%Z) as [|Hlt]; [done|].
    rewrite predict_layer_in_range in Hmsg by lia.
    apply Sequential_forward_raises in Hmsg as [msg' [=]].
  - intros Hidx. rewrite Hge by done. eauto.
  - apply Hge.
  - apply Hge. lia.
  - intros Hx. rewrite predict_layer_in_range by lia.
    by apply (prefix_ok input_dim hidden_layers n_class).
Qed.

Lemma predict_layer_index_check_witness :
  ArtificialNeuralNetwork.predict_layer ann_example (Tensor [2] [1; -1]%R) 1 true
    = Raise (ValueError
        "The model has only 1 hidden layers, but hidden layer 1 was requested (indexing starts at 0).") /\
  exists y, ArtificialNeuralNetwork.predict_layer ann_example
              (Tensor [2] [1; -1]%R) (1 - 1) true = Ok y.
Proof.
  pose proof (predict_layer_index_check 2 [2] 2 ann_example (Tensor [2] [1; -1]%R)
                1 true ann_example_wf) as (_ & Hge & _ & Hok).
  split.
  - apply Hge. simpl. lia.
  - apply Hok. reflexivity.
Defined.

Lemma py_slice_to_zero {A} (l : list A) : py_slice_to l 0 = [].
Proof. unfold py_slice_to, py_bound. simpl. by rewrite Z.min_l by lia. Qed.

Lemma py_slice_to_negative {A} (l : list A) (stop : Z) :
  (stop < 0)%Z ->
  py_slice_to l stop = take (Z.to_nat (Z.of_nat (length l) + stop)) l.
Proof.
  intros Hs. unfold py_slice_to, py_bound.
  rewrite decide_True by done. f_equal. lia.
Qed.

(** C9: a negative [hidden_layer_idx] passes the range check of
    [predict_layer], whatever the network: no [ValueError] is raised, and the
    prefix [network[:2*idx + int(post_act) + 1]] is run on the input.  For
    [hidden_layer_idx = -1] with [post_act = True] the prefix is empty and
    the input comes back unchanged; otherwise the bound is negative and the
    prefix leaves out that many modules at the end.  On a well-formed
    network the call returns a tensor for every input of the right width. *)
Theorem predict_layer_negative_index
    {F : Type} `{Scalar F} (m : ArtificialNeuralNetwork.t F) (x : tensor F)
    (hidden_layer_idx : Z) (post_act : bool) :
  (hidden_layer_idx < 0)%Z ->
  let stop := (2 * hidden_layer_idx + Z.b2z post_act + 1)%Z in
  let network := ArtificialNeuralNetwork.network m in
  ArtificialNeuralNetwork.predict_layer m x hidden_layer_idx post_act
    = Sequential_forward (py_slice_to network stop) x /\
  (forall msg, ArtificialNeuralNetwork.predict_layer m x hidden_layer_idx post_act
                 <> Raise (ValueError msg)) /\
  ArtificialNeuralNetwork.predict_layer m x (-1) true = Ok x /\
  ((stop < 0)%Z ->
     py_slice_to network stop
       = take (Z.to_nat (Z.of_nat (length network) + stop)) network) /\
  (forall input_dim hidden_layers n_class,
     ArtificialNeuralNetwork.wf input_dim hidden_layers n_class m ->
     last (shape x) = Some input_dim ->
     exists y, ArtificialNeuralNetwork.predict_layer m x hidden_layer_idx post_act
                 = Ok y).
Proof.
  intros Hneg stop network.
  pose proof (hidden_count_nonneg m) as Hc.
  assert (ArtificialNeuralNetwork.predict_layer m x hidden_layer_idx post_act
            = Sequential_forward (py_slice_to network stop) x) as Hrun.
  { apply predict_layer_in_range. lia. }
  split; [exact Hrun|]. split; [|split; [|split]].
  - intros msg Hmsg. rewrite Hrun in Hmsg.
    apply Sequential_forward_raises in Hmsg as [msg' [=]].
  - rewrite predict_layer_in_range by lia. simpl.
    by rewrite py_slice_to_zero.
  - apply py_slice_to_negative.
  - intros input_dim hidden_layers n_class Hwf Hx. rewrite Hrun.
    by apply (prefix_ok input_dim hidden_layers n_class).
Qed.

Lemma predict_layer_negative_index_witness :
  ArtificialNeuralNetwork.predict_layer ann_example (Tensor [2] [1; -1]%R) (-1) false
    = Sequential_forward
        (py_slice_to (ArtificialNeuralNetwork.network ann_example) (-1))
        (Tensor [2] [1; -1]%R) /\
  (forall msg,
     ArtificialNeuralNetwork.predict_layer ann_example (Tensor [2] [1; -1]%R) (-1) false
       <> Raise (ValueError msg)) /\
  ArtificialNeuralNetwork.predict_layer ann_example (Tensor [2] [1; -1]%R) (-1) true
    = Ok (Tensor [2] [1; -1]%R) /\
  py_slice_to (ArtificialNeuralNetwork.network ann_example) (-1)
    = take 2 (ArtificialNeuralNetwork.network ann_example) /\
  exists y,
    ArtificialNeuralNetwork.predict_layer ann_example (Tensor [2] [1; -1]%R) (-1) false
      = Ok y.
Proof.
  pose proof (predict_layer_negative_index ann_example (Tensor [2] [1; -1]%R)
                (-1) false ltac:(lia)) as (Hrun & Hno & Hid & Hcut & Hok).
  split; [exact Hrun|]. split; [exact Hno|]. split; [exact Hid|]. split.
  - apply Hcut. simpl. lia.
  - apply (Hok 2 [2] 2 ann_example_wf). reflexivity.
Defined.

(** ** [predict] and [predict_proba] of the network *)





(** ** [load_state_dict] keeps a model well formed *)

Section LoadFacts.
Context {F : Type} `{Scalar F}.

Lemma sd_get_elem (sd : state_dict F) key v :
  sd_get sd key = Some v -> (key, v) ∈ sd.
Proof.
  induction sd as [|[k u] sd IH]; simpl; [done|].
  case_decide as Hk.
  - intros [= ->]. subst k. by left.
  - intros Hv. right. by apply IH.
Qed.

Lemma load_param_ok (sd : state_dict F) key p v :
  Forall (fun kv => tensor_wf kv.2) sd ->
  load_param sd key p = Ok v ->
  shape v = shape p /\ tensor_wf v.
Proof.
  intros Hsd. unfold load_param.
  destruct (sd_get sd key) as [u|] eqn:Hu; [|done].
  case_decide as Hs; [|done]. intros [= <-]. split; [done|].
  apply sd_get_elem in Hu. rewrite Forall_forall in Hsd.
  by apply (Hsd (key, u)).
Qed.

Lemma Linear_load_wf (sd : state_dict F) prefix l l' :
  Forall (fun kv => tensor_wf kv.2) sd ->
  Linear_wf l ->
  Linear_load sd prefix l = Ok l' ->
  Linear_wf l' /\ in_features l' = in_features l /\
  out_features l' = out_features l.
Proof.
  intros Hsd (Hsw & Hsb & _ & _). unfold Linear_load.
  destruct (load_param sd _ (weight l)) as [w|] eqn:Hw; [|done]. simpl.
  destruct (load_param sd _ (bias l)) as [b|] eqn:Hb; [|done]. simpl.
  intros [= <-]. simpl.
  apply load_param_ok in Hw as [Hw1 Hw2]; [|done].
  apply load_param_ok in Hb as [Hb1 Hb2]; [|done].
  repeat split; simpl; congruence.
Qed.

Lemma LR_load_state_dict_wf (m m' : LogisticRegression.t F) sd :
  Forall (fun kv => tensor_wf kv.2) sd ->
  LogisticRegression.wf m ->
  LogisticRegression.load_state_dict m sd = Ok m' ->
  LogisticRegression.wf m' /\
  LogisticRegression.input_dim m' = LogisticRegression.input_dim m /\
  LogisticRegression.n_class m' = LogisticRegression.n_class m.
Proof.
  intros Hsd (Hin & Hout & Hl). unfold LogisticRegression.load_state_dict.
  destruct (Linear_load sd _ _) as [l|] eqn:Hload; [|done]. simpl.
  destruct (check_unexpected sd _) as [[]|]; [|done]. simpl.
  intros [= <-]. apply Linear_load_wf in Hload as (Hl' & Hin' & Hout'); [|done..].
  repeat split; simpl; try apply Hl'; congruence.
Qed.

Lemma load_modules_layers_ok (sd : state_dict F) k prev hidden_layers n_class
    (ms ms' : list (module F)) :
  Forall (fun kv => tensor_wf kv.2) sd ->
  ArtificialNeuralNetwork.layers_ok prev hidden_layers n_class ms ->
  ArtificialNeuralNetwork.load_modules sd k ms = Ok ms' ->
  ArtificialNeuralNetwork.layers_ok prev hidden_layers n_class ms'.
Proof.
  intros Hsd. revert k prev ms ms'.
  induction hidden_layers as [|layer rest IH]; intros k prev ms ms'; simpl.
  - intros (l & -> & Hl & Hin & Hout). simpl.
    destruct (Linear_load sd _ l) as [l'|] eqn:Hload; [|done]. simpl.
    intros [= <-]. apply Linear_load_wf in Hload as (Hl' & Hin' & Hout'); [|done..].
    exists l'. repeat split; try apply Hl'; congruence.
  - intros (l & a & tl & -> & Hl & Hin & Hout & Htl). simpl.
    destruct (Linear_load sd _ l) as [l'|] eqn:Hload; [|done]. simpl.
    destruct (ArtificialNeuralNetwork.load_modules sd (S (S k)) tl)
      as [tl'|] eqn:Htl'; [|done]. simpl.
    intros [= <-]. apply Linear_load_wf in Hload as (Hl' & Hin' & Hout'); [|done..].
    exists l', a, tl'. split; [done|]. split; [done|].
    split; [congruence|]. split; [congruence|]. by apply (IH (S (S k)) layer tl).
Qed.

Lemma ANN_load_state_dict_wf input_dim hidden_layers n_class
    (m m' : ArtificialNeuralNetwork.t F) sd :
  Forall (fun kv => tensor_wf kv.2) sd ->
  ArtificialNeuralNetwork.wf input_dim hidden_layers n_class m ->
  ArtificialNeuralNetwork.load_state_dict m sd = Ok m' ->
  ArtificialNeuralNetwork.wf input_dim hidden_layers n_class m'.
Proof.
  intros Hsd Hwf. unfold ArtificialNeuralNetwork.load_state_dict.
  destruct (ArtificialNeuralNetwork.load_modules sd 0 _) as [ms|] eqn:Hms; [|done].
  simpl. destruct (check_unexpected sd _) as [[]|]; [|done]. simpl.
  intros [= <-]. unfold ArtificialNeuralNetwork.wf. simpl.
  by apply (load_modules_layers_ok sd 0 _ _ _ _ ms) in Hwf.
Qed.

End LoadFacts.

(** A batch of two examples with one feature each, given as a tensor of
    shape (2, 1) to a model on one feature: the squeeze removes the feature
    dimension and the affine layer rejects the result. *)
Example LR_predict_batch_of_width_one :
  (exists msg,
     LogisticRegression.predict (LogisticRegression.init (fun _ => 0%R) 1 2)
       (TorchTensor (Tensor [2; 1] [1; -1]%R)) = Raise (RuntimeError msg)) /\
  is_ok (LogisticRegression.predict (LogisticRegression.init (fun _ => 0%R) 1 2)
           (ArrayLike (NdArray [2; 1] [1; -1]%R))) = true.
Proof. split; [eexists|]; reflexivity. Qed.
